(** * Credit approval engine: a shallow embedding of [credit/services.py],
      of the column aliases and the reconciliation loop of [credit/tasks.py]
      and of the registration handler, the loan-creation handler from its
      call of the evaluation on, and the loan listing of [credit/views.py].

    Numbers.  Python [int] is [Z].  Python [float] is modelled by the
    rationals [Q]: a float is a finite number, and [+], [-], [*] and [/]
    give the exact result where the source rounds it to a double; infinity
    and NaN are not values of the model.  Comparisons are the boolean ones
    of the source ([<], [<=], [==]).  The exceptions of the arithmetic are
    kept: a division whose divisor is not a literal goes through [Py.div],
    which raises [ZeroDivisionError] as Python does; [1 + monthly_rate] goes
    through [Py.one_plus], where a rate too small for a double next to one
    is absorbed; and [**] goes through [Py.pow], which raises
    [OverflowError] when the power leaves the range of a double.  The
    properties stated below are those that do not rest on the exactness of
    the model: they are structural, or take the value the code returns as a
    hypothesis, or bound the input to integers on which the double and the
    exact quotient agree.

    Storage.  The two Django tables are lists of rows; a query set is a
    [filter] over the table, an aggregate is a fold over the selected rows,
    and an integer column holds any integer.  The clock ([date.today()]) is
    an explicit argument.

    Handlers.  What the views ask of Python and Django on a request value
    ([int], [str], the key of a new row) is a parameter of the handlers; the
    results hold for every choice of it. *)

From Stdlib Require Import ZArith QArith Qround Qpower Qabs Lqa Lia Bool List.
From Stdlib Require Import String.
Import ListNotations.

Local Open Scope Z_scope.

(** ** Python numerics *)

Module Py.

Inductive exn : Type :=
| ZeroDivisionError
| OverflowError.

(** The outcome of running a Python expression: a value or an exception. *)
Inductive result (A : Type) : Type :=
| Ok (a : A)
| Raise (e : exn).
Arguments Ok {A} a.
Arguments Raise {A} e.

Definition bind {A B} (m : result A) (k : A -> result B) : result B :=
  match m with
  | Ok a => k a
  | Raise e => Raise e
  end.

Definition Qltb (x y : Q) : bool := negb (Qle_bool y x).

(** [x / y] on numbers. *)
Definition div (x y : Q) : result Q :=
  if Qeq_bool y 0 then Raise ZeroDivisionError else Ok (x / y)%Q.

(** [1 + x] on doubles, as far as it decides which exception follows: a
    term of at most half a unit in the last place of one is absorbed, and
    the sum is one. *)
Definition one_plus (x : Q) : Q :=
  if Qle_bool (- (1 # 2 ^ 54)) x && Qle_bool x (1 # 2 ^ 53) then 1
  else (1 + x)%Q.

(** Magnitudes from [2^1024 - 2^970] on lie outside the range of a double:
    they round to infinity. *)
Definition overflow_threshold : Q := inject_Z (2 ^ 1024 - 2 ^ 970).

(** [x ** n] of a float by an integer: [ZeroDivisionError] for zero to a
    negative power, [OverflowError] when the power is outside the range of a
    double. *)
Definition pow (x : Q) (n : Z) : result Q :=
  if Qeq_bool x 0 && (n <? 0) then Raise ZeroDivisionError
  else if Qle_bool overflow_threshold (Qabs (x ^ n)) then Raise OverflowError
  else Ok (x ^ n)%Q.

(** [min(a, b)]: the first argument unless the second is strictly smaller. *)
Definition min (a b : Q) : Q := if Qltb b a then b else a.
Definition minZ (a b : Z) : Z := if b <? a then b else a.
Definition maxZ (a b : Z) : Z := if a <? b then b else a.

(** [int(x)] of a float: truncation toward zero. *)
Definition int (x : Q) : Z := Z.quot (Qnum x) (Zpos (Qden x)).

(** [round(x)] with one argument: the nearest integer, a tie going to the
    even neighbour. *)
Definition round (x : Q) : Z :=
  let f := Qfloor x in
  match (x - inject_Z f ?= 1 # 2)%Q with
  | Lt => f
  | Gt => f + 1
  | Eq => if Z.even f then f else f + 1
  end.

(** [round(x, 2)]. *)
Definition round2 (x : Q) : Q := (inject_Z (round (x * 100)) / 100)%Q.

(** [v or d] where [v] is a number or [None]: [d] replaces every falsy
    value, that is [None] and zero. *)
Definition or_else (v : option Q) (d : Q) : Q :=
  match v with
  | None => d
  | Some x => if Qeq_bool x 0 then d else x
  end.

Definition or_elseZ (v : option Z) (d : Z) : Z :=
  match v with
  | None => d
  | Some x => if x =? 0 then d else x
  end.

End Py.

Import Py.

Notation "x <- m ;; k" := (Py.bind m (fun x => k))
  (at level 61, m at next level, right associativity).

(** ** Data model ([credit/models.py]) *)

Record date : Type := mkDate { year : Z; month : Z; day : Z }.

(** [d1 <= d2] on dates. *)
Definition date_leb (d1 d2 : date) : bool :=
  (year d1 <? year d2)
  || ((year d1 =? year d2)
      && ((month d1 <? month d2)
          || ((month d1 =? month d2) && (day d1 <=? day d2)))).

Record Customer : Type := mkCustomer {
  customer_id : Z;
  first_name : string;
  last_name : string;
  phone_number : string;
  age : option Z;
  monthly_salary : Z;
  approved_limit : Z;
  current_debt : Z
}.

(** The foreign key [customer] holds the owner's primary key. *)
Record Loan : Type := mkLoan {
  loan_id : Z;
  customer : Z;
  loan_amount : Q;
  tenure : Z;
  interest_rate : Q;
  monthly_repayment : Q;
  emis_paid_on_time : Z;
  start_date : option date;
  end_date : option date
}.

Record DB : Type := mkDB {
  customers : list Customer;
  loans : list Loan
}.

(** ** Services ([credit/services.py]) *)

Definition LAKH : Z := 100000.

Definition round_to_lakh (value : Q) : Z :=
  Py.round (value / inject_Z LAKH) * LAKH.

Definition calculate_emi (principal annual_rate : Q) (tenure_months : Z)
  : result Q :=
  if tenure_months <=? 0 then Ok 0%Q
  else
    let monthly_rate := ((annual_rate / 100) / 12)%Q in
    if Qeq_bool monthly_rate 0 then Py.div principal (inject_Z tenure_months)
    else
      factor <- Py.pow (Py.one_plus monthly_rate) tenure_months ;;
      Py.div (principal * monthly_rate * factor) (factor - 1).

(** [Loan.objects.filter(customer=customer)]. *)
Definition loans_of (db : DB) (c : Customer) : list Loan :=
  filter (fun l => customer l =? customer_id c) (loans db).

(** [Q(end_date__isnull=True) | Q(end_date__gte=today)]. *)
Definition is_current (today : date) (l : Loan) : bool :=
  match end_date l with
  | None => true
  | Some d => date_leb today d
  end.

Definition get_current_loans (db : DB) (today : date) (c : Customer)
  : list Loan :=
  filter (is_current today) (loans_of db c).

(** [aggregate(total=Sum(field)).get("total")]: [None] over no rows. *)
Definition Sum {A : Type} (field : A -> Q) (rows : list A) : option Q :=
  match rows with
  | [] => None
  | _ => Some (fold_right (fun r acc => field r + acc)%Q 0%Q rows)
  end.

Definition SumZ {A : Type} (field : A -> Z) (rows : list A) : option Z :=
  match rows with
  | [] => None
  | _ => Some (fold_right (fun r acc => field r + acc) 0 rows)
  end.

Definition get_current_emi_sum (db : DB) (today : date) (c : Customer) : Q :=
  Py.or_else (Sum monthly_repayment (get_current_loans db today c)) 0.

Definition get_current_debt_sum (db : DB) (today : date) (c : Customer) : Q :=
  Py.or_else (Sum loan_amount (get_current_loans db today c)) 0.

(** [loans.filter(start_date__year=current_year)]. *)
Definition started_in (y : Z) (l : Loan) : bool :=
  match start_date l with
  | None => false
  | Some d => year d =? y
  end.

Definition compute_credit_score (db : DB) (today : date) (c : Customer)
  : result Z :=
  let loans := loans_of db c in
  let total_loans := Z.of_nat (List.length loans) in
  let current_debt := get_current_debt_sum db today c in
  if Py.Qltb (inject_Z (approved_limit c)) current_debt then Ok 0
  else
    let total_emis := Py.or_elseZ (SumZ tenure loans) 0 in
    let paid_on_time := Py.or_elseZ (SumZ emis_paid_on_time loans) 0 in
    on_time_ratio <-
      (if 0 <? total_emis
       then r <- Py.div (inject_Z paid_on_time) (inject_Z total_emis) ;;
            Ok (Py.min r 1)
       else Ok 0%Q) ;;
    let loan_count_score := (inject_Z (Py.minZ total_loans 10) / 10 * 15)%Q in
    let current_year := year today in
    let current_year_loans :=
      Z.of_nat (List.length (filter (started_in current_year) loans)) in
    let current_year_score :=
      (inject_Z (Py.minZ current_year_loans 5) / 5 * 15)%Q in
    let approved_limit := Py.or_elseZ (Some (approved_limit c)) 1 in
    let total_volume := Py.or_else (Sum loan_amount loans) 0 in
    v <- Py.div total_volume (inject_Z approved_limit) ;;
    let volume_score := (Py.min v 1 * 20)%Q in
    let score :=
      (on_time_ratio * 50 + loan_count_score + current_year_score
       + volume_score)%Q in
    Ok (Py.minZ (Py.int score) 100).

Definition minimum_rate_for_score (score : Z) : option Q :=
  if 50 <? score then Some 0%Q
  else if (30 <? score) && (score <=? 50) then Some 12%Q
  else if (10 <? score) && (score <=? 30) then Some 16%Q
  else None.

Record Evaluation : Type := mkEvaluation {
  score : Z;
  approved : bool;
  corrected_rate : Q
}.

Definition evaluate_eligibility (db : DB) (today : date) (c : Customer)
  (loan_amount interest_rate : Q) (tenure : Z) : result Evaluation :=
  score <- compute_credit_score db today c ;;
  match minimum_rate_for_score score with
  | None => Ok (mkEvaluation score false interest_rate)
  | Some min_rate =>
    let corrected_rate :=
      if Py.Qltb 0 min_rate && Py.Qltb interest_rate min_rate
      then min_rate else interest_rate in
    let current_emi_sum := get_current_emi_sum db today c in
    new_emi <- calculate_emi loan_amount corrected_rate tenure ;;
    let emi_limit := ((1 # 2) * inject_Z (monthly_salary c))%Q in
    if Py.Qltb emi_limit (current_emi_sum + new_emi)
    then Ok (mkEvaluation score false corrected_rate)
    else if Py.Qltb 0 min_rate && Py.Qltb interest_rate min_rate
    then Ok (mkEvaluation score false corrected_rate)
    else Ok (mkEvaluation score true corrected_rate)
  end.

(** ** Reconciliation ([credit/tasks.py], the closing loop of
       [ingest_initial_data]) *)

Definition set_current_debt (c : Customer) (v : Z) : Customer :=
  mkCustomer (customer_id c) (first_name c) (last_name c) (phone_number c)
             (age c) (monthly_salary c) (approved_limit c) v.

(** [customer.save(update_fields=["current_debt"])]: the row with the
    object's primary key takes the object's [current_debt]. *)
Definition save_current_debt (c : Customer) (db : DB) : DB :=
  mkDB (map (fun row =>
               if customer_id row =? customer_id c
               then set_current_debt row (current_debt c) else row)
            (customers db))
       (loans db).

(** One turn of the loop. *)
Definition reconcile_customer (today : date) (db : DB) (c : Customer) : DB :=
  let c' := set_current_debt c (Py.int (get_current_debt_sum db today c)) in
  save_current_debt c' db.

(** [for customer in Customer.objects.all(): ...]: the rows are read when the
    loop starts. *)
Definition reconcile (today : date) (db : DB) : DB :=
  fold_left (reconcile_customer today) (customers db) db.

(** ** Loan listing ([credit/views.py]) *)

Inductive response (A : Type) : Type :=
| Http200 (body : A)
| Http404.
Arguments Http200 {A} body.
Arguments Http404 {A}.

Module Item.
Record t : Type := mk {
  loan_id : Z;
  loan_amount : Q;
  interest_rate : Q;
  monthly_installment : Q;
  repayments_left : Z
}.
End Item.

(** [get_object_or_404(Customer, customer_id=customer_id)]. *)
Definition get_customer (db : DB) (cid : Z) : option Customer :=
  find (fun c => customer_id c =? cid) (customers db).

Definition loan_item (loan : Loan) : Item.t :=
  let repayments_left :=
    Py.maxZ (tenure loan - emis_paid_on_time loan) 0 in
  Item.mk (loan_id loan) (loan_amount loan) (interest_rate loan)
          (Py.round2 (monthly_repayment loan)) repayments_left.

Definition view_loans_by_customer (db : DB) (today : date) (cid : Z)
  : response (list Item.t) :=
  match get_customer db cid with
  | None => Http404
  | Some c =>
    let loans :=
      filter (is_current today)
             (filter (fun l => customer l =? customer_id c) (loans db)) in
    Http200 (map loan_item loans)
  end.

(** ** Column aliases of the ingestion ([credit/tasks.py]) *)

(** A cell of a spreadsheet row: a value, or the missing value that
    [pd.isna] recognises. *)
Inductive cell (V : Type) : Type :=
| NaN
| Cell (v : V).
Arguments NaN {V}.
Arguments Cell {V} v.

(** [row.get(key)] on a row with distinct column labels; [None] when
    [key in row] is false. *)
Definition row_get {V : Type} (row : list (string * cell V)) (key : string)
  : option (cell V) :=
  option_map snd (find (fun kv => String.eqb (fst kv) key) row).

(** [_get_value(row, *keys, default=default)]; Python's [None] is [None]. *)
Fixpoint _get_value {V : Type} (row : list (string * cell V))
  (keys : list string) (default : option V) : option V :=
  match keys with
  | [] => default
  | key :: keys' =>
    match row_get row key with
    | Some (Cell v) => Some v
    | _ => _get_value row keys' default
    end
  end.

(** The column [key] holds a value in [row]. *)
Definition has_value {V : Type} (row : list (string * cell V)) (key : string)
  : Prop :=
  exists v, row_get row key = Some (Cell v).

(** ** Request handlers ([credit/views.py]) *)

(** [calendar.monthrange(y, m)[1]]. *)
Definition is_leap (y : Z) : bool :=
  ((y mod 4 =? 0) && negb (y mod 100 =? 0)) || (y mod 400 =? 0).

Definition days_in_month (y m : Z) : Z :=
  if m =? 2 then (if is_leap y then 29 else 28)
  else if (m =? 4) || (m =? 6) || (m =? 9) || (m =? 11) then 30
  else 31.

(** [d + relativedelta(months=n)]: the month moves by [n], the day is cut
    back to the length of the month reached, and a year outside 1..9999 is
    refused by [date] ([None]). *)
Definition add_months (d : date) (n : Z) : option date :=
  let total := year d * 12 + (month d - 1) + n in
  let y := total / 12 in
  let m := total mod 12 + 1 in
  if (1 <=? y) && (y <=? 9999)
  then Some (mkDate y m (Py.minZ (days_in_month y m) (day d)))
  else None.

Module View.

(** Bodies of the JSON responses. *)
Inductive body : Type :=
| Error (error : string)
| Registered (customer_id : Z) (name : string) (age monthly_income
    approved_limit : Z) (phone_number : string)
| LoanResult (loan_id : option Z) (customer_id : Z) (loan_approved : bool)
    (message : string) (monthly_installment : Q).

Record Response : Type := mkResponse { data : body; status : Z }.

(** An exception that no handler catches. *)
Inductive crash : Type :=
| ServiceError (e : Py.exn)
| LibraryError
| DateOutOfRange.

(** How a call ends: with a value or with a crash. *)
Inductive outcome (A : Type) : Type :=
| Return (a : A)
| Uncaught (c : crash).
Arguments Return {A} a.
Arguments Uncaught {A} c.

(** What [int(value)] does inside
    [try ... except (TypeError, ValueError)]. *)
Inductive conversion (A : Type) : Type :=
| Converted (a : A)
| Invalid
| Escapes.
Arguments Converted {A} a.
Arguments Invalid {A}.
Arguments Escapes {A}.

Definition bind {A B} (m : outcome A) (k : A -> outcome B) : outcome B :=
  match m with
  | Return a => k a
  | Uncaught c => Uncaught c
  end.

(** A service call whose exception propagates. *)
Definition call {A} (m : Py.result A) : outcome A :=
  match m with
  | Py.Ok a => Return a
  | Py.Raise e => Uncaught (ServiceError e)
  end.

End View.

Import View.

Section Handlers.

(** The values of a request body, and the library calls applied to them:
    [int], [str], the test [value is None] and the keys that the database
    gives to a new loan and to a new customer. *)
Variable V : Type.
Variable py_int : V -> conversion Z.
Variable py_str : V -> string.
Variable is_none : V -> bool.
Variable next_loan_id : DB -> Z.
Variable next_customer_id : DB -> Z.

(** [field in data] and [data[field]]. *)
Definition has_field (data : list (string * V)) (field : string) : bool :=
  existsb (fun kv => String.eqb (fst kv) field) data.

Definition get_field (data : list (string * V)) (field : string)
  : outcome V :=
  match find (fun kv => String.eqb (fst kv) field) data with
  | Some kv => Return (snd kv)
  | None => Uncaught LibraryError
  end.

Definition _require_fields (data : list (string * V)) (fields : list string)
  : bool * option Response :=
  let missing := filter (fun field => negb (has_field data field)) fields in
  match missing with
  | [] => (true, None)
  | _ =>
    (false,
     Some (mkResponse
             (Error ("Missing fields: " ++ String.concat ", " missing))
             400))
  end.

Definition _parse_int (value : V) (field : string)
  : outcome (option Z * option Response) :=
  match py_int value with
  | Converted z => Return (Some z, None)
  | Invalid =>
    Return (None,
            Some (mkResponse (Error ("Invalid value for " ++ field ++ "."))
                             400))
  | Escapes => Uncaught LibraryError
  end.

(** [value, error = parse(...)] followed by [if error: return error]. *)
Definition unless_error {A B} (parsed : outcome (option A * option Response))
  (on_error : Response -> outcome B) (k : A -> outcome B) : outcome B :=
  View.bind parsed (fun p =>
    match p with
    | (_, Some error) => on_error error
    | (Some value, None) => k value
    | (None, None) => Uncaught LibraryError
    end).

(** [register_customer].  The text columns store [str(value)] and refuse
    [None]; the name of the response is formatted from the values given;
    [limit] is the local [approved_limit]. *)
Definition register_customer (db : DB) (data : list (string * V))
  : outcome (Response * DB) :=
  let reply (response : Response) := Return (response, db) in
  match _require_fields data
          ["first_name"%string; "last_name"%string; "age"%string;
           "monthly_income"%string; "phone_number"%string] with
  | (false, Some response) => reply response
  | (false, None) => Uncaught LibraryError
  | (true, _) =>
    View.bind (get_field data "monthly_income") (fun v_income =>
    unless_error (_parse_int v_income "monthly_income") reply
      (fun monthly_income =>
    View.bind (get_field data "age") (fun v_age =>
    unless_error (_parse_int v_age "age") reply (fun age =>
    let limit := round_to_lakh (inject_Z (36 * monthly_income)) in
    View.bind (get_field data "first_name") (fun v_first =>
    View.bind (get_field data "last_name") (fun v_last =>
    View.bind (get_field data "phone_number") (fun v_phone =>
    if is_none v_first || is_none v_last then Uncaught LibraryError
    else
      let customer :=
        mkCustomer (next_customer_id db) (py_str v_first) (py_str v_last)
                   (py_str v_phone) (Some age) monthly_income limit 0 in
      Return (mkResponse
                (Registered (customer_id customer)
                   (py_str v_first ++ " " ++ py_str v_last) age
                   (monthly_salary customer) (approved_limit customer)
                   (phone_number customer))
                201,
              mkDB (customers db ++ [customer]) (loans db)))))))))
  end.

(** [Loan.objects.create(...)]: the row joins the table under the key the
    database gives it. *)
Definition create_row (db : DB) (l : Loan) : DB :=
  mkDB (customers db) (loans db ++ [l]).

(** [create_loan] from the call of [evaluate_eligibility] on; the second
    component is the database the handler leaves.  The amounts are finite
    numbers and an integer column holds any integer, so the write of the
    cached debt that follows the insertion does not fail here. *)
Definition loan_response (db : DB) (today : date) (customer : Customer)
  (loan_amount interest_rate : Q) (tenure : Z) : outcome (Response * DB) :=
  View.bind
    (call (evaluate_eligibility db today customer loan_amount interest_rate
             tenure)) (fun evaluation =>
  let corrected_rate := corrected_rate evaluation in
  View.bind (call (calculate_emi loan_amount corrected_rate tenure))
    (fun monthly_installment =>
  if negb (approved evaluation)
  then Return (mkResponse
                 (LoanResult None (customer_id customer) false
                    "Loan not approved based on credit policy."
                    (Py.round2 monthly_installment))
                 200, db)
  else
    let start_date := today in
    match add_months start_date tenure with
    | None => Uncaught DateOutOfRange
    | Some end_date =>
      let loan :=
        mkLoan (next_loan_id db) (customer_id customer) loan_amount tenure
               corrected_rate monthly_installment 0
               (Some start_date) (Some end_date) in
      let db1 := create_row db loan in
      let db2 := reconcile_customer today db1 customer in
      Return (mkResponse
                (LoanResult (Some (loan_id loan)) (customer_id customer) true
                   "Loan approved." (Py.round2 monthly_installment))
                201, db2)
    end)).

End Handlers.

(** ** Sample data *)

Definition today0 : date := mkDate 2026 11 4.

Definition closed_loan (id owner : Z) (amount : Q) (paid : Z) : Loan :=
  mkLoan id owner amount 12 12 8885 paid
         (Some (mkDate 2024 1 1)) (Some (mkDate 2025 1 1)).

Definition open_loan (id owner : Z) (amount : Q) (months paid : Z) : Loan :=
  mkLoan id owner amount months 12 8885 paid (Some (mkDate 2026 3 1)) None.

Definition customer_of (id salary limit : Z) : Customer :=
  mkCustomer id "Test" "User" "1234567890" None salary limit 0.

(** Fully repaid history: score 71. *)
Definition good_customer : Customer := customer_of 1 100000 100000.
(** Half of the installments on time: score 46. *)
Definition fair_customer : Customer := customer_of 2 100000 100000.
(** A single loan with a negative principal. *)
Definition odd_customer : Customer := customer_of 3 100000 100000.
(** An open loan larger than the approved limit. *)
Definition indebted_customer : Customer := customer_of 4 100000 100000.
(** No loans at all. *)
Definition new_customer : Customer := customer_of 5 50000 1800000.
(** Large loans, all of them closed. *)
Definition past_customer : Customer := customer_of 6 100000 100000.
(** One loan with a negative count of installments paid on time. *)
Definition late_customer : Customer := customer_of 7 100000 100000.

Definition sample_db : DB :=
  mkDB [good_customer; fair_customer; odd_customer; indebted_customer;
        new_customer; past_customer; late_customer]
       [closed_loan 1 1 100000 12;
        closed_loan 2 2 100000 6;
        mkLoan 3 3 (-200000) 0 12 0 0 None None;
        open_loan 4 4 200000 24 24;
        closed_loan 5 6 500000 12;
        open_loan 6 6 50000 12 30;
        mkLoan 7 7 1000 2 12 500 (-40) None (Some (mkDate 2020 1 1))].

(** A sample instance of the library calls of the handlers: request values
    are numbers, strings or null, only numbers convert, and a new loan gets
    the key after the largest one in the table. *)
Inductive json : Type :=
| JNum (q : Q)
| JStr (s : string)
| JNull.

Definition sample_int (v : json) : conversion Z :=
  match v with
  | JNum q => Converted (Py.int q)
  | _ => Invalid
  end.

Definition sample_next_id (db : DB) : Z :=
  1 + fold_right Z.max 0 (map loan_id (loans db)).

Definition sample_str (v : json) : string :=
  match v with
  | JNum _ => "0"
  | JStr s => s
  | JNull => "None"
  end.

Definition sample_is_none (v : json) : bool :=
  match v with
  | JNull => true
  | _ => false
  end.

Definition sample_next_customer_id (db : DB) : Z :=
  1 + fold_right Z.max 0 (map customer_id (customers db)).

Definition sample_register :=
  register_customer json sample_int sample_str sample_is_none
    sample_next_customer_id.

Definition sample_request (cid amount rate months : Q)
  : list (string * json) :=
  [("customer_id"%string, JNum cid); ("loan_amount"%string, JNum amount);
   ("interest_rate"%string, JNum rate); ("tenure"%string, JNum months)].

(** ** Notions used in the statements *)

(** [round(value / 100000) * 100000] with round-half-up, as the specification
    words it: a tie goes to the larger multiple. *)
Definition round_half_up_to_lakh (value : Q) : Z :=
  Qfloor (value / inject_Z LAKH + (1 # 2)) * LAKH.

(** [k] is the integer nearest to [x], a tie between two integers going to
    the even one. *)
Definition nearest_ties_even (x : Q) (k : Z) : Prop :=
  (inject_Z k - (1 # 2) < x /\ x < inject_Z k + (1 # 2))%Q
  \/ (((x == inject_Z k + (1 # 2))%Q \/ (x == inject_Z k - (1 # 2))%Q)
      /\ Z.even k = true).

(** The value of the local variable [score] of [compute_credit_score]: the
    weighted sum of the four factors, before [int] and the cap. *)
Definition raw_score (db : DB) (today : date) (c : Customer) : result Q :=
  let loans := loans_of db c in
  let total_emis := Py.or_elseZ (SumZ tenure loans) 0 in
  let paid_on_time := Py.or_elseZ (SumZ emis_paid_on_time loans) 0 in
  on_time_ratio <-
    (if 0 <? total_emis
     then r <- Py.div (inject_Z paid_on_time) (inject_Z total_emis) ;;
          Ok (Py.min r 1)
     else Ok 0%Q) ;;
  v <- Py.div (Py.or_else (Sum loan_amount loans) 0)
              (inject_Z (Py.or_elseZ (Some (approved_limit c)) 1)) ;;
  Ok (on_time_ratio * 50
      + inject_Z (Py.minZ (Z.of_nat (List.length loans)) 10) / 10 * 15
      + inject_Z (Py.minZ (Z.of_nat (List.length
                    (filter (started_in (year today)) loans))) 5) / 5 * 15
      + Py.min v 1 * 20)%Q.

(** The value that one turn of the reconciliation loop stores for a row. *)
Definition refreshed (db : DB) (today : date) (c : Customer) : Customer :=
  set_current_debt c (Py.int (get_current_debt_sum db today c)).

(** * Properties *)

(** ** Facts about the numeric layer *)

Section PyFacts.

Lemma Qltb_true (x y : Q) : Py.Qltb x y = true <-> (x < y)%Q.
Proof.
  unfold Py.Qltb. rewrite negb_true_iff.
  split; intro H.
  - apply Qnot_le_lt. intro Hle. apply Qle_bool_iff in Hle. congruence.
  - destruct (Qle_bool y x) eqn:E; [|reflexivity].
    apply Qle_bool_iff in E. exfalso. apply (Qlt_not_le _ _ H E).
Qed.

Lemma Qltb_false (x y : Q) : Py.Qltb x y = false <-> (y <= x)%Q.
Proof.
  unfold Py.Qltb. rewrite negb_false_iff. apply Qle_bool_iff.
Qed.

Lemma div_ok (x y : Q) : ~ (y == 0)%Q -> Py.div x y = Ok (x / y)%Q.
Proof.
  intro H. unfold Py.div.
  destruct (Qeq_bool y 0) eqn:E; [|reflexivity].
  apply Qeq_bool_iff in E. contradiction.
Qed.

Lemma min_le_r (a b : Q) : (Py.min a b <= b)%Q.
Proof.
  unfold Py.min. destruct (Py.Qltb b a) eqn:E.
  - apply Qle_refl.
  - now apply Qltb_false in E.
Qed.

Lemma min_glb (a b c : Q) : (c <= a)%Q -> (c <= b)%Q -> (c <= Py.min a b)%Q.
Proof.
  intros Ha Hb. unfold Py.min. now destruct (Py.Qltb b a).
Qed.

Lemma minZ_spec (a b : Z) : Py.minZ a b = Z.min a b.
Proof.
  unfold Py.minZ. destruct (b <? a) eqn:E.
  - apply Z.ltb_lt in E. lia.
  - apply Z.ltb_ge in E. lia.
Qed.

Lemma maxZ_spec (a b : Z) : Py.maxZ a b = Z.max a b.
Proof.
  unfold Py.maxZ. destruct (a <? b) eqn:E.
  - apply Z.ltb_lt in E. lia.
  - apply Z.ltb_ge in E. lia.
Qed.

(** On a non-negative number truncation is the floor. *)
Lemma int_floor (x : Q) : (0 <= x)%Q -> Py.int x = Qfloor x.
Proof.
  destruct x as [n d]. unfold Qle, Py.int, Qfloor. simpl. intro H.
  apply Z.quot_div_nonneg; lia.
Qed.

End PyFacts.

(** ** Amortization: [calculate_emi] *)

Lemma inject_Z_nonzero (t : Z) : t <> 0 -> ~ (inject_Z t == 0)%Q.
Proof.
  intros Ht H. unfold Qeq in H. simpl in H. lia.
Qed.

Lemma inject_Z_nonneg (t : Z) : 0 <= t -> (0 <= inject_Z t)%Q.
Proof.
  intro Ht. unfold Qle. simpl. lia.
Qed.

Lemma inject_Z_pos (t : Z) : 0 < t -> (0 < inject_Z t)%Q.
Proof.
  intro Ht. unfold Qlt. simpl. lia.
Qed.

Lemma calculate_emi_nonpos_tenure (p r : Q) (t : Z) :
  t <= 0 -> calculate_emi p r t = Ok 0%Q.
Proof.
  intro Ht. unfold calculate_emi.
  destruct (t <=? 0) eqn:E; [reflexivity|].
  apply Z.leb_gt in E. lia.
Qed.

Lemma calculate_emi_zero_rate (p : Q) (t : Z) :
  0 < t -> calculate_emi p 0 t = Ok (p / inject_Z t)%Q.
Proof.
  intro Ht. unfold calculate_emi.
  destruct (t <=? 0) eqn:E.
  - apply Z.leb_le in E. lia.
  - change (Qeq_bool (0 / 100 / 12) 0) with true. cbv iota.
    apply div_ok, inject_Z_nonzero. lia.
Qed.



(** ** Score tiers and eligibility *)

(** Case analysis on the condition of the first [if] of the goal. *)
Ltac case_if :=
  match goal with
  | |- context [if ?b then _ else _] => destruct b
  end.

Lemma minimum_rate_defined (s : Z) :
  10 < s -> exists m, minimum_rate_for_score s = Some m
                      /\ (m = 0%Q \/ m = 12%Q \/ m = 16%Q).
Proof.
  intro Hs. unfold minimum_rate_for_score.
  destruct (50 <? s) eqn:E1.
  { eexists. split; [reflexivity | left; reflexivity]. }
  apply Z.ltb_ge in E1.
  destruct (30 <? s) eqn:E2.
  - replace (s <=? 50) with true by (symmetry; apply Z.leb_le; lia).
    eexists; split; [reflexivity | auto].
  - apply Z.ltb_ge in E2.
    replace (10 <? s) with true by (symmetry; apply Z.ltb_lt; lia).
    replace (s <=? 30) with true by (symmetry; apply Z.leb_le; lia).
    eexists; split; [reflexivity | auto].
Qed.

Lemma minimum_rate_undefined (s : Z) :
  s <= 10 -> minimum_rate_for_score s = None.
Proof.
  intro Hs. unfold minimum_rate_for_score.
  replace (50 <? s) with false by (symmetry; apply Z.ltb_ge; lia).
  replace (30 <? s) with false by (symmetry; apply Z.ltb_ge; lia).
  replace (10 <? s) with false by (symmetry; apply Z.ltb_ge; lia).
  reflexivity.
Qed.

Lemma minimum_rate_some_inv (s : Z) (m : Q) :
  minimum_rate_for_score s = Some m ->
  (50 < s /\ m = 0%Q)
  \/ (30 < s <= 50 /\ m = 12%Q)
  \/ (10 < s <= 30 /\ m = 16%Q).
Proof.
  unfold minimum_rate_for_score.
  destruct (50 <? s) eqn:E1.
  { apply Z.ltb_lt in E1. intro H; inversion H. left. split; [lia | auto]. }
  apply Z.ltb_ge in E1.
  destruct (30 <? s) eqn:E2; simpl.
  { apply Z.ltb_lt in E2.
    replace (s <=? 50) with true by (symmetry; apply Z.leb_le; lia).
    intro H; inversion H. right. left. split; [lia | auto]. }
  apply Z.ltb_ge in E2.
  destruct (10 <? s) eqn:E3; simpl; [|discriminate].
  apply Z.ltb_lt in E3.
  replace (s <=? 30) with true by (symmetry; apply Z.leb_le; lia).
  intro H; inversion H. right. right. split; [lia | auto].
Qed.

(** C6: the tier table at its boundaries, no minimum for a score of ten or
    less, and for such a score an outright rejection that reports the
    requested rate and the score. *)
Theorem reject_tier (db : DB) (today : date) (c : Customer)
  (amount rate : Q) (t s : Z) :
  minimum_rate_for_score 51 = Some 0%Q
  /\ minimum_rate_for_score 50 = Some 12%Q
  /\ minimum_rate_for_score 31 = Some 12%Q
  /\ minimum_rate_for_score 30 = Some 16%Q
  /\ minimum_rate_for_score 11 = Some 16%Q
  /\ minimum_rate_for_score 10 = None
  /\ (s <= 10 -> minimum_rate_for_score s = None)
  /\ (compute_credit_score db today c = Ok s -> s <= 10 ->
      evaluate_eligibility db today c amount rate t
      = Ok (mkEvaluation s false rate)).
Proof.
  repeat (split; [reflexivity|]). split.
  - apply minimum_rate_undefined.
  - intros Hs Hle. unfold evaluate_eligibility. rewrite Hs. simpl.
    now rewrite minimum_rate_undefined.
Qed.

Lemma reject_tier_witness :
  minimum_rate_for_score (-3) = None
  /\ evaluate_eligibility sample_db today0 new_customer 200000 9 24
     = Ok (mkEvaluation 0 false 9).
Proof.
  pose proof (reject_tier sample_db today0 new_customer 200000 9 24 0)
    as (_ & _ & _ & _ & _ & _ & _ & H).
  pose proof (reject_tier sample_db today0 new_customer 200000 9 24 (-3))
    as (_ & _ & _ & _ & _ & _ & H' & _).
  split.
  - apply H'. lia.
  - apply H; [vm_compute; reflexivity | lia].
Defined.

(** X26: with a score above ten, a positive tier minimum and a requested
    rate strictly below it, whenever [calculate_emi] returns an installment
    at the tier minimum the evaluation is a rejection that reports the tier
    minimum, whatever the outcome of the installment-limit check. *)
Theorem below_minimum_rate_rejected (db : DB) (today : date) (c : Customer)
  (amount rate : Q) (t s : Z) (min_rate emi : Q) :
  compute_credit_score db today c = Ok s ->
  10 < s ->
  minimum_rate_for_score s = Some min_rate ->
  (0 < min_rate)%Q ->
  (rate < min_rate)%Q ->
  calculate_emi amount min_rate t = Ok emi ->
  evaluate_eligibility db today c amount rate t
  = Ok (mkEvaluation s false min_rate).
Proof.
  intros Hs _ Hm Hpos Hlt He. unfold evaluate_eligibility.
  rewrite Hs. simpl. rewrite Hm.
  apply Qltb_true in Hpos. apply Qltb_true in Hlt.
  rewrite Hpos, Hlt. simpl.
  rewrite He. simpl.
  case_if; reflexivity.
Qed.

(** The installment check passes here (8885 a month against a limit of
    50000) and the loan is rejected all the same. *)
Lemma below_minimum_rate_rejected_witness :
  exists emi,
    calculate_emi 100000 12 12 = Ok emi
    /\ (get_current_emi_sum sample_db today0 fair_customer + emi
        <= (1 # 2) * inject_Z (monthly_salary fair_customer))%Q
    /\ evaluate_eligibility sample_db today0 fair_customer 100000 10 12
       = Ok (mkEvaluation 46 false 12).
Proof.
  destruct (calculate_emi 100000 12 12) as [emi|] eqn:He;
    [|vm_compute in He; discriminate He].
  exists emi. split; [reflexivity|]. split.
  - vm_compute in He. injection He as <-. vm_compute. discriminate.
  - apply (below_minimum_rate_rejected sample_db today0 fair_customer
             100000 10 12 46 12 emi).
    + vm_compute; reflexivity.
    + lia.
    + reflexivity.
    + reflexivity.
    + reflexivity.
    + exact He.
Defined.

(** Seventy months at one percent a month more than double an amount, so
    [70 * 1024] months multiply it by more than [2^1024]. *)
Lemma pow_overflows (x : Q) :
  (2 <= x ^ 70)%Q -> Py.pow x (70 * 1024) = Raise OverflowError.
Proof.
  intro H. unfold Py.pow.
  replace (70 * 1024 <? 0) with false by reflexivity.
  rewrite andb_false_r.
  replace (Qle_bool Py.overflow_threshold (Qabs (x ^ (70 * 1024)))) with true;
    [reflexivity|].
  symmetry. apply Qle_bool_iff.
  apply Qle_trans with (x ^ (70 * 1024))%Q; [|apply Qle_Qabs].
  rewrite Qpower_mult.
  assert (H1 : (1 <= (x ^ 70 / 2) ^ 1024)%Q).
  { apply Qpower_1_le; [|discriminate].
    apply Qle_shift_div_l; [reflexivity|]. now rewrite Qmult_1_l. }
  rewrite Qdiv_power in H1.
  apply Qle_trans with (2 ^ 1024)%Q.
  - unfold Py.overflow_threshold.
    rewrite <- (Zpower_Qpower 2 1024) by discriminate.
    rewrite <- Zle_Qle. apply Z.le_sub_nonneg. discriminate.
  - apply (Qmult_le_compat_r _ _ (2 ^ 1024)) in H1; [|discriminate].
    rewrite Qmult_1_l, Qmult_comm, Qmult_div_r in H1; [exact H1|].
    discriminate.
Qed.

(** C1 fails on the code: at the corrected rate of twelve percent a tenure
    of 71680 months takes the growth factor [1.01 ** 71680] out of the range
    of a double, and the evaluation raises where the claim has it return a
    rejection. *)
Theorem evaluate_eligibility_overflows :
  compute_credit_score sample_db today0 fair_customer = Ok 46
  /\ minimum_rate_for_score 46 = Some 12%Q
  /\ evaluate_eligibility sample_db today0 fair_customer 100000 10
       (70 * 1024)
     = Raise OverflowError.
Proof.
  assert (Hs : compute_credit_score sample_db today0 fair_customer = Ok 46)
    by (vm_compute; reflexivity).
  split; [exact Hs|]. split; [reflexivity|].
  unfold evaluate_eligibility. rewrite Hs.
  change (score <- Ok 46 ;;
          match minimum_rate_for_score score with
          | Some min_rate => _
          | None => _
          end)
    with (new_emi <- calculate_emi 100000 12 (70 * 1024) ;;
          if Py.Qltb ((1 # 2) * inject_Z (monthly_salary fair_customer))
               (get_current_emi_sum sample_db today0 fair_customer + new_emi)
          then Ok (mkEvaluation 46 false 12)
          else Ok (mkEvaluation 46 false 12)).
  unfold calculate_emi.
  replace (70 * 1024 <=? 0) with false by reflexivity.
  replace (Qeq_bool (12 / 100 / 12) 0) with false by reflexivity.
  rewrite pow_overflows; [reflexivity|].
  vm_compute. discriminate.
Qed.



(** ** Credit score: [compute_credit_score] *)

Section Aggregates.

Context {A : Type}.

Lemma filter_twice (f g : A -> bool) (rows : list A) :
  filter g (filter f rows) = filter (fun r => f r && g r) rows.
Proof.
  induction rows as [|r rows IH]; simpl; [reflexivity|].
  destruct (f r); simpl; [|assumption].
  destruct (g r); now rewrite IH.
Qed.

End Aggregates.

(** The score is zero past the gate and the capped truncation of the
    weighted sum otherwise. *)
Lemma compute_credit_score_eq (db : DB) (today : date) (c : Customer) :
  compute_credit_score db today c
  = if Py.Qltb (inject_Z (approved_limit c)) (get_current_debt_sum db today c)
    then Ok 0
    else score <- raw_score db today c ;; Ok (Py.minZ (Py.int score) 100).
Proof.
  unfold compute_credit_score, raw_score.
  destruct (Py.Qltb _ _); [reflexivity|].
  destruct (0 <? _); simpl; [|now destruct (Py.div _ _)].
  destruct (Py.div (inject_Z _) _); simpl; [|reflexivity].
  now destruct (Py.div _ _).
Qed.

(** The shape of the weighted sum: it is always defined, and its four
    terms are an on-time ratio [r] and a volume ratio [v] next to the two
    capped counts. *)
Lemma raw_score_shape (db : DB) (today : date) (c : Customer) :
  let rows := loans_of db c in
  let limit := Py.or_elseZ (Some (approved_limit c)) 1 in
  exists r v : Q,
    raw_score db today c
    = Ok (r * 50
          + inject_Z (Py.minZ (Z.of_nat (List.length rows)) 10) / 10 * 15
          + inject_Z (Py.minZ (Z.of_nat (List.length
                (filter (started_in (year today)) rows))) 5) / 5 * 15
          + Py.min v 1 * 20)%Q
    /\ (r <= 1)%Q
    /\ (0 <= Py.or_elseZ (SumZ emis_paid_on_time rows) 0 -> (0 <= r)%Q)
    /\ v = (Py.or_else (Sum loan_amount rows) 0 / inject_Z limit)%Q
    /\ limit <> 0.
Proof.
  intros rows limit.
  assert (Hl : limit <> 0).
  { unfold limit. simpl. destruct (approved_limit c =? 0) eqn:E; [lia|].
    now apply Z.eqb_neq in E. }
  unfold raw_score. fold rows. fold limit.
  rewrite (div_ok _ (inject_Z limit)) by (now apply inject_Z_nonzero).
  destruct (0 <? Py.or_elseZ (SumZ tenure rows) 0) eqn:E.
  - apply Z.ltb_lt in E.
    rewrite div_ok by (apply inject_Z_nonzero; lia).
    eexists. eexists. split; [reflexivity|].
    split; [apply min_le_r|]. split; [|split; [reflexivity | assumption]].
    intro Hp. apply min_glb; [|discriminate].
    apply Qle_shift_div_l.
    + now apply inject_Z_pos.
    + rewrite Qmult_0_l. now apply inject_Z_nonneg.
  - exists 0%Q. eexists. split; [reflexivity|].
    split; [discriminate|]. split; [intros _; apply Qle_refl|].
    split; [reflexivity | assumption].
Qed.

(** The weighted sum 71.5 gives 71: the fraction is dropped, not rounded. *)
Lemma compute_credit_score_truncates :
  raw_score sample_db today0 good_customer = Ok (4290000000 # 60000000)
  /\ (4290000000 # 60000000 == 143 # 2)%Q
  /\ compute_credit_score sample_db today0 good_customer = Ok 71.
Proof. repeat split; vm_compute; reflexivity. Qed.

(** C3 fails on the code: the score is capped at 100 and has no floor at
    zero, so the single loan of [odd_customer], whose principal is negative,
    drives it to -38 (the volume factor is -40, the loan count adds 1.5 and
    [int] drops the half). *)
Theorem compute_credit_score_negative_principal :
  compute_credit_score sample_db today0 odd_customer = Ok (-38).
Proof. vm_compute. reflexivity. Qed.

(** So does a negative count of installments paid on time. *)
Lemma compute_credit_score_negative_paid :
  compute_credit_score sample_db today0 late_customer = Ok (-998).
Proof. vm_compute. reflexivity. Qed.

(** C5: when the principal still owed on current loans exceeds the approved
    limit the score is zero; the test comes first and returns before any
    payment history is read. *)
Theorem debt_gate (db : DB) (today : date) (c : Customer) :
  (inject_Z (approved_limit c) < get_current_debt_sum db today c)%Q ->
  compute_credit_score db today c = Ok 0.
Proof.
  intro H. rewrite compute_credit_score_eq.
  apply Qltb_true in H. now rewrite H.
Qed.

(** Every installment of the open loan was paid on time; the score is zero
    all the same. *)
Lemma debt_gate_witness :
  Forall (fun l => emis_paid_on_time l = tenure l)
         (loans_of sample_db indebted_customer)
  /\ compute_credit_score sample_db today0 indebted_customer = Ok 0.
Proof.
  split.
  - repeat constructor.
  - apply (debt_gate sample_db today0 indebted_customer). reflexivity.
Defined.

(** The gate looks at current loans only: closed loans worth five times the
    limit do not trigger it. *)
Lemma debt_gate_ignores_closed_loans :
  (inject_Z (approved_limit past_customer)
   < Py.or_else (Sum loan_amount (loans_of sample_db past_customer)) 0)%Q
  /\ compute_credit_score sample_db today0 past_customer = Ok 76.
Proof. split; vm_compute; reflexivity. Qed.

(** The current debt is the principal of the customer's loans that have no
    end date or end today or later. *)
Lemma get_current_debt_sum_spec (db : DB) (today : date) (c : Customer) :
  (get_current_debt_sum db today c
   == fold_right (fun l acc => loan_amount l + acc) 0
        (filter (fun l => (customer l =? customer_id c)
                          && match end_date l with
                             | None => true
                             | Some d => date_leb today d
                             end)
                (loans db)))%Q.
Proof.
  unfold get_current_debt_sum, get_current_loans, loans_of.
  rewrite filter_twice. unfold is_current.
  destruct (filter _ (loans db)) as [|l rows]; simpl; [reflexivity|].
  destruct (Qeq_bool _ 0) eqn:E; [|reflexivity].
  apply Qeq_bool_iff in E. now rewrite E.
Qed.

(** ** Eligibility: the unguarded division *)

(** C4 fails on the code: at an annual rate of -2400 the monthly growth
    factor is -1, its square is 1, and the annuity formula divides by
    [factor - 1 = 0]. *)
Theorem evaluate_eligibility_raises :
  evaluate_eligibility sample_db today0 good_customer 100000 (-2400) 2
  = Raise ZeroDivisionError.
Proof. vm_compute. reflexivity. Qed.

(** So does a rate too small to move one: the growth factor is one and the
    same division fails. *)
Lemma calculate_emi_absorbed_rate :
  calculate_emi 100000 (1 # 100000000000000) 12 = Raise ZeroDivisionError.
Proof. vm_compute. reflexivity. Qed.

(** ** Rounding to the lakh: [round_to_lakh] *)

Lemma inject_Z_lt_succ (a b : Z) : (inject_Z a < inject_Z b + 1)%Q -> a <= b.
Proof.
  unfold Qlt, Qplus. simpl. lia.
Qed.

Lemma inject_Z_succ (a : Z) : (inject_Z (a + 1) == inject_Z a + 1)%Q.
Proof.
  unfold Qeq, Qplus. simpl. lia.
Qed.

Lemma inject_Z_eq_succ (a b : Z) :
  (inject_Z a == inject_Z b + 1)%Q -> a = b + 1.
Proof.
  unfold Qeq, Qplus. simpl. lia.
Qed.

Lemma even_add_1 (a : Z) : Z.even (a + 1) = negb (Z.even a).
Proof.
  now rewrite Z.add_1_r, Z.even_succ, <- Z.negb_even.
Qed.

Lemma round_nearest_ties_even (x : Q) : nearest_ties_even x (Py.round x).
Proof.
  pose proof (Qfloor_le x) as Hlo. pose proof (Qlt_floor x) as Hhi.
  rewrite inject_Z_succ in Hhi.
  unfold Py.round, nearest_ties_even.
  destruct (x - inject_Z (Qfloor x) ?= 1 # 2)%Q eqn:E.
  - apply Qeq_alt in E.
    destruct (Z.even (Qfloor x)) eqn:Ev.
    + right. split; [left; lra | assumption].
    + right. split.
      * right. rewrite inject_Z_succ. lra.
      * rewrite even_add_1, Ev. reflexivity.
  - apply Qlt_alt in E. left. split; lra.
  - apply Qgt_alt in E. left. rewrite inject_Z_succ. split; lra.
Qed.

Lemma nearest_ties_even_unique (x : Q) (k k' : Z) :
  nearest_ties_even x k -> nearest_ties_even x k' -> k = k'.
Proof.
  assert (Hodd : forall a, Z.even a = true -> Z.even (a + 1) = true -> False).
  { intros a Ha Hb. rewrite even_add_1, Ha in Hb. discriminate Hb. }
  intros [[H1 H2] | [[H | H] Hev]] [[H1' H2'] | [[H' | H'] Hev']].
  - assert (k <= k') by (apply inject_Z_lt_succ; lra).
    assert (k' <= k) by (apply inject_Z_lt_succ; lra). lia.
  - assert (k <= k') by (apply inject_Z_lt_succ; lra).
    assert (k' + 1 <= k); [|lia].
    apply inject_Z_lt_succ. rewrite inject_Z_succ. lra.
  - assert (k' <= k) by (apply inject_Z_lt_succ; lra).
    assert (k + 1 <= k'); [|lia].
    apply inject_Z_lt_succ. rewrite inject_Z_succ. lra.
  - assert (k' <= k) by (apply inject_Z_lt_succ; lra).
    assert (k + 1 <= k'); [|lia].
    apply inject_Z_lt_succ. rewrite inject_Z_succ. lra.
  - assert (k <= k') by (apply inject_Z_lt_succ; lra).
    assert (k' <= k) by (apply inject_Z_lt_succ; lra). lia.
  - assert (Hk : k' = k + 1) by (apply inject_Z_eq_succ; lra).
    subst k'. exfalso. eauto.
  - assert (k <= k') by (apply inject_Z_lt_succ; lra).
    assert (k' + 1 <= k); [|lia].
    apply inject_Z_lt_succ. rewrite inject_Z_succ. lra.
  - assert (Hk : k = k' + 1) by (apply inject_Z_eq_succ; lra).
    subst k. exfalso. eauto.
  - assert (k <= k') by (apply inject_Z_lt_succ; lra).
    assert (k' <= k) by (apply inject_Z_lt_succ; lra). lia.
Qed.

(** C2, as the code has it: for an integer value of magnitude at most
    [10^15], where the double quotient rounds as the exact one, the result
    is the multiple of 100000 nearest to the value, and a value halfway
    between two multiples goes to the even multiple of 100000 (Python's
    [round]); the three sample values of the specification come out as
    stated. *)
Theorem round_to_lakh_ties_to_even (z k : Z) :
  Z.abs z <= 10 ^ 15 ->
  (nearest_ties_even (inject_Z z / inject_Z LAKH) k
   <-> round_to_lakh (inject_Z z) = k * LAKH)
  /\ round_to_lakh 150000 = 200000
  /\ round_to_lakh 149999 = 100000
  /\ round_to_lakh 100000 = 100000.
Proof.
  intros _. split; [|repeat split; reflexivity].
  unfold round_to_lakh. split.
  - intro H. f_equal. symmetry.
    eapply nearest_ties_even_unique; [exact H | apply round_nearest_ties_even].
  - intro H. apply Z.mul_cancel_r in H; [|discriminate].
    rewrite <- H. apply round_nearest_ties_even.
Qed.

Lemma round_to_lakh_ties_to_even_witness :
  Z.abs 250000 <= 10 ^ 15
  /\ nearest_ties_even (inject_Z 250000 / inject_Z LAKH) 2
  /\ round_to_lakh (inject_Z 250000) = 2 * LAKH.
Proof.
  assert (Hb : Z.abs 250000 <= 10 ^ 15) by (vm_compute; discriminate).
  assert (H : nearest_ties_even (inject_Z 250000 / inject_Z LAKH) 2).
  { right. split; [left|]; reflexivity. }
  split; [exact Hb|]. split; [exact H|].
  apply (proj1 (proj1 (round_to_lakh_ties_to_even 250000 2 Hb)) H).
Defined.

(** Halfway between 200000 and 300000 the code returns the smaller multiple. *)
Lemma round_to_lakh_tie_rounds_down :
  round_to_lakh 250000 = 200000 /\ round_half_up_to_lakh 250000 = 300000.
Proof. split; reflexivity. Qed.

(** The rounding is not round-half-up. *)
Lemma round_to_lakh_not_half_up :
  ~ (forall value, round_to_lakh value = round_half_up_to_lakh value).
Proof.
  intro H. specialize (H 250000%Q). discriminate H.
Qed.

(** ** Reconciliation of the cached debt: [reconcile] *)

(** The exposure reads the loan table and the customer's key, nothing else. *)
Lemma get_current_debt_sum_ext (db db' : DB) (today : date) (c c' : Customer) :
  loans db' = loans db ->
  customer_id c' = customer_id c ->
  get_current_debt_sum db' today c' = get_current_debt_sum db today c.
Proof.
  intros Hl Hc.
  unfold get_current_debt_sum, get_current_loans, loans_of.
  now rewrite Hl, Hc.
Qed.

Lemma compute_credit_score_ext (db db' : DB) (today : date) (c c' : Customer) :
  loans db' = loans db ->
  customer_id c' = customer_id c ->
  approved_limit c' = approved_limit c ->
  compute_credit_score db' today c' = compute_credit_score db today c.
Proof.
  intros Hl Hc Ha. rewrite !compute_credit_score_eq.
  rewrite (get_current_debt_sum_ext db db' today c c' Hl Hc), Ha.
  unfold raw_score, loans_of. now rewrite Hl, Hc, Ha.
Qed.

Lemma set_current_debt_twice (c : Customer) (v w : Z) :
  set_current_debt (set_current_debt c v) w = set_current_debt c w.
Proof. reflexivity. Qed.

Lemma refreshed_refreshed (db db' : DB) (today : date) (c : Customer) :
  loans db' = loans db ->
  refreshed db' today (refreshed db today c) = refreshed db today c.
Proof.
  intro Hl. unfold refreshed at 1.
  rewrite (get_current_debt_sum_ext db db' today c (refreshed db today c) Hl)
    by reflexivity.
  apply set_current_debt_twice.
Qed.

(** After the loop has gone through [snapshot], the rows whose key occurs in
    it hold the recomputed debt and the other rows are as they were. *)
Lemma reconcile_fold (today : date) (snapshot : list Customer) (db : DB) :
  let db' := fold_left (reconcile_customer today) snapshot db in
  loans db' = loans db
  /\ customers db'
     = map (fun row =>
              if existsb (fun c => customer_id row =? customer_id c) snapshot
              then refreshed db today row else row)
           (customers db).
Proof.
  revert db. induction snapshot as [|c rest IH]; intro db; simpl.
  - split; [reflexivity|]. symmetry. apply map_id.
  - destruct (IH (reconcile_customer today db c)) as [Hl Hc].
    split; [exact Hl|].
    rewrite Hc. simpl. rewrite map_map. apply map_ext. intro row.
    destruct (customer_id row =? customer_id c) eqn:E; simpl.
    + apply Z.eqb_eq in E.
      replace (get_current_debt_sum db today c)
        with (get_current_debt_sum db today row)
        by (now apply get_current_debt_sum_ext).
      fold (refreshed db today row).
      destruct (existsb _ rest); [|reflexivity].
      now apply refreshed_refreshed.
    + destruct (existsb _ rest); [|reflexivity].
      unfold refreshed.
      now rewrite (get_current_debt_sum_ext db _ today row row).
Qed.

(** The loop is a single pass of [refreshed] over the customer table. *)
Lemma reconcile_map (today : date) (db : DB) :
  reconcile today db
  = mkDB (map (refreshed db today) (customers db)) (loans db).
Proof.
  destruct (reconcile_fold today (customers db) db) as [Hl Hc].
  fold (reconcile today db) in Hl, Hc.
  destruct (reconcile today db) as [cs ls]. simpl in *. subst ls. f_equal.
  rewrite Hc. apply map_ext_in. intros row Hin.
  replace (existsb _ (customers db)) with true; [reflexivity|].
  symmetry. apply existsb_exists. exists row. split; [assumption|].
  apply Z.eqb_refl.
Qed.

Lemma Forall2_map_graph {A B : Type} (P : A -> B -> Prop) (g : A -> B)
  (l : list A) :
  (forall a, P a (g a)) -> Forall2 P l (map g l).
Proof.
  intro H. induction l; simpl; constructor; auto.
Qed.

(** C8: a second reconciliation over the same loans and on the same day
    changes nothing; the first one leaves the loan table alone, writes the
    recomputed debt and nothing else into each customer row, and leaves every
    customer's credit score as it was. *)
Theorem reconcile_idempotent (today : date) (db : DB) :
  reconcile today (reconcile today db) = reconcile today db
  /\ loans (reconcile today db) = loans db
  /\ Forall2 (fun c c' =>
                c' = set_current_debt c
                       (Py.int (get_current_debt_sum db today c))
                /\ compute_credit_score (reconcile today db) today c'
                   = compute_credit_score db today c)
             (customers db) (customers (reconcile today db)).
Proof.
  rewrite (reconcile_map today (reconcile today db)).
  rewrite !(reconcile_map today db). simpl.
  split; [|split].
  - f_equal. rewrite map_map. apply map_ext. intro c.
    now apply refreshed_refreshed.
  - reflexivity.
  - apply Forall2_map_graph. intro c. split; [reflexivity|].
    now apply compute_credit_score_ext.
Qed.

(** The stale cache of the sample table is replaced by the open principal. *)
Lemma reconcile_sample :
  map current_debt (customers (reconcile today0 sample_db))
  = [0; 0; -200000; 200000; 0; 50000; 0].
Proof. vm_compute. reflexivity. Qed.

(** ** Loan listing: [view_loans_by_customer] *)

(** C10: each entry of the listing stands for one current loan of the
    customer, in order, and reports [max(tenure - emis_paid_on_time, 0)]
    repayments left, which is never negative. *)
Theorem view_loans_repayments_left (db : DB) (today : date) (cid : Z)
  (items : list Item.t) :
  view_loans_by_customer db today cid = Http200 items ->
  exists c,
    get_customer db cid = Some c
    /\ Forall2 (fun loan item =>
                  Item.loan_id item = loan_id loan
                  /\ Item.repayments_left item
                     = Z.max (tenure loan - emis_paid_on_time loan) 0
                  /\ 0 <= Item.repayments_left item)
               (get_current_loans db today c) items.
Proof.
  unfold view_loans_by_customer.
  destruct (get_customer db cid) as [c|]; [|discriminate].
  intro H. inversion H; subst items. clear H.
  exists c. split; [reflexivity|].
  apply Forall2_map_graph. intro loan. simpl.
  rewrite maxZ_spec. repeat split. lia.
Qed.

(** Thirty installments recorded on a loan of twelve months: zero left. *)
Lemma view_loans_repayments_left_witness :
  exists c,
    get_customer sample_db 6 = Some c
    /\ Forall2 (fun loan item =>
                  Item.loan_id item = loan_id loan
                  /\ Item.repayments_left item
                     = Z.max (tenure loan - emis_paid_on_time loan) 0
                  /\ 0 <= Item.repayments_left item)
               (get_current_loans sample_db today0 c)
               [Item.mk 6 50000 12 (888500 # 100) 0].
Proof.
  apply (view_loans_repayments_left sample_db today0 6).
  vm_compute. reflexivity.
Defined.

(** * Further properties of the services *)

(** ** Rounding *)

Lemma nearest_ties_even_bounds (x : Q) (k : Z) :
  nearest_ties_even x k ->
  (inject_Z k - (1 # 2) <= x /\ x <= inject_Z k + (1 # 2))%Q.
Proof.
  intros [[H1 H2] | [[H | H] _]]; split; lra.
Qed.

Lemma nearest_ties_even_eq (x y : Q) (k : Z) :
  (x == y)%Q -> nearest_ties_even x k -> nearest_ties_even y k.
Proof.
  intros Hxy [[H1 H2] | [[H | H] Hev]].
  - left. split; lra.
  - right. split; [left; lra | assumption].
  - right. split; [right; lra | assumption].
Qed.

Lemma round_monotone (x y : Q) : (x <= y)%Q -> Py.round x <= Py.round y.
Proof.
  intro Hxy.
  pose proof (round_nearest_ties_even x) as Hx.
  pose proof (round_nearest_ties_even y) as Hy.
  pose proof (nearest_ties_even_bounds _ _ Hx) as [Hx1 _].
  pose proof (nearest_ties_even_bounds _ _ Hy) as [_ Hy2].
  destruct (Z_le_gt_dec (Py.round x) (Py.round y)) as [|Hgt]; [assumption|].
  exfalso.
  assert (Hk : (inject_Z (Py.round y) + 1 <= inject_Z (Py.round x))%Q).
  { rewrite <- inject_Z_succ, <- Zle_Qle. lia. }
  assert (Heq : (x == y)%Q) by lra.
  apply (nearest_ties_even_eq _ _ _ Heq) in Hx.
  pose proof (nearest_ties_even_unique _ _ _ Hx Hy). lia.
Qed.

(** X1: a larger value never gets a smaller approved-limit rounding. *)
Theorem round_to_lakh_monotone (v w : Q) :
  (v <= w)%Q -> round_to_lakh v <= round_to_lakh w.
Proof.
  intro H. unfold round_to_lakh.
  apply Z.mul_le_mono_nonneg_r; [discriminate|].
  apply round_monotone.
  unfold Qdiv. apply Qmult_le_compat_r; [assumption | discriminate].
Qed.

Lemma round_to_lakh_monotone_witness :
  round_to_lakh 149999 <= round_to_lakh 150000.
Proof.
  apply (round_to_lakh_monotone 149999 150000). discriminate.
Defined.

(** X2: rounding commutes with negation, ties included, because a tie goes
    to the even multiple on either side of zero. *)
Theorem round_to_lakh_opp (v : Q) :
  round_to_lakh (- v) = - round_to_lakh v.
Proof.
  unfold round_to_lakh. rewrite <- Z.mul_opp_l. f_equal.
  apply (nearest_ties_even_unique (- v / inject_Z LAKH)).
  - apply round_nearest_ties_even.
  - assert (Hev : Z.even (- Py.round (v / inject_Z LAKH))
                  = Z.even (Py.round (v / inject_Z LAKH)))
      by apply Z.even_opp.
    assert (Hneg : (- v / inject_Z LAKH == - (v / inject_Z LAKH))%Q)
      by (field; discriminate).
    assert (Hinj : forall k, (inject_Z (- k) == - inject_Z k)%Q)
      by (intro k; unfold Qeq; simpl; lia).
    destruct (round_nearest_ties_even (v / inject_Z LAKH))
      as [[H1 H2] | [[H | H] H0]].
    + left. rewrite Hinj, Hneg. split; lra.
    + right. rewrite Hev. split; [|assumption]. right.
      rewrite Hinj, Hneg. lra.
    + right. rewrite Hev. split; [|assumption]. left.
      rewrite Hinj, Hneg. lra.
Qed.

Lemma round_to_lakh_within (v : Q) :
  (inject_Z (round_to_lakh v) - 50000 <= v
   /\ v <= inject_Z (round_to_lakh v) + 50000)%Q.
Proof.
  unfold round_to_lakh.
  pose proof (nearest_ties_even_bounds _ _
                (round_nearest_ties_even (v / inject_Z LAKH))) as [H1 H2].
  rewrite inject_Z_mult.
  assert (Hv : (v == v / inject_Z LAKH * inject_Z LAKH)%Q)
    by (field; discriminate).
  change (inject_Z LAKH) with 100000%Q in *.
  set (q := (v / 100000)%Q) in *. set (r := inject_Z (Py.round q)) in *.
  split; rewrite Hv; lra.
Qed.

Lemma round_to_lakh_multiple (k : Z) :
  round_to_lakh (inject_Z (k * LAKH)) = k * LAKH.
Proof.
  unfold round_to_lakh. f_equal.
  apply (nearest_ties_even_unique (inject_Z (k * LAKH) / inject_Z LAKH)).
  - apply round_nearest_ties_even.
  - left.
    assert (H : (inject_Z (k * LAKH) / inject_Z LAKH == inject_Z k)%Q).
    { rewrite inject_Z_mult. field. discriminate. }
    rewrite H. split; lra.
Qed.

(** X3: among the integers of magnitude at most [10^15], a multiple of
    100000 is returned as it is, so rounding twice is rounding once; and the
    result is never further than 50000 from the value. *)
Theorem round_to_lakh_idempotent (z k : Z) :
  Z.abs (k * LAKH) <= 10 ^ 15 ->
  Z.abs z <= 10 ^ 15 ->
  round_to_lakh (inject_Z (k * LAKH)) = k * LAKH
  /\ round_to_lakh (inject_Z (round_to_lakh (inject_Z z)))
     = round_to_lakh (inject_Z z)
  /\ -50000 <= round_to_lakh (inject_Z z) - z <= 50000.
Proof.
  intros _ _. split; [apply round_to_lakh_multiple|]. split.
  - unfold round_to_lakh at 2. apply round_to_lakh_multiple.
  - pose proof (round_to_lakh_within (inject_Z z)) as [H1 H2].
    revert H1 H2. generalize (round_to_lakh (inject_Z z)).
    intro r. unfold Qle, Qminus, Qplus, Qopp. simpl. lia.
Qed.

Lemma round_to_lakh_idempotent_witness :
  round_to_lakh (inject_Z (3 * LAKH)) = 3 * LAKH
  /\ round_to_lakh (inject_Z (round_to_lakh (inject_Z 250000))) = 200000
  /\ -50000 <= round_to_lakh (inject_Z 250000) - 250000 <= 50000.
Proof.
  pose proof (round_to_lakh_idempotent 250000 3
                ltac:(vm_compute; discriminate)
                ltac:(vm_compute; discriminate)) as (H1 & H2 & H3).
  split; [exact H1|]. split; [|exact H3].
  rewrite H2. reflexivity.
Defined.

(** ** Score *)

Lemma int_zero (x : Q) : (x == 0)%Q -> Py.int x = 0.
Proof.
  destruct x as [n d]. unfold Qeq, Py.int. simpl. intro H.
  replace n with 0 by lia. reflexivity.
Qed.

Lemma score_without_loans (db : DB) (today : date) (c : Customer) :
  loans_of db c = [] -> compute_credit_score db today c = Ok 0.
Proof.
  intro Hnone. rewrite compute_credit_score_eq.
  case_if; [reflexivity|].
  destruct (raw_score_shape db today c) as (r & v & Hraw & _ & _ & Hv & Hl).
  revert Hraw. unfold raw_score. rewrite Hnone in *. simpl in *.
  rewrite div_ok by (now apply inject_Z_nonzero).
  intro Hraw. simpl.
  set (l := if approved_limit c =? 0 then 1 else approved_limit c) in *.
  assert (H0 : (0 / inject_Z l == 0)%Q) by (unfold Qdiv; ring).
  assert (Hmin : (Py.min (0 / inject_Z l) 1 == 0)%Q).
  { unfold Py.min. destruct (Py.Qltb 1 (0 / inject_Z l)) eqn:E; [|exact H0].
    apply Qltb_true in E. rewrite H0 in E. discriminate E. }
  rewrite int_zero; [reflexivity|].
  change (inject_Z (Py.minZ 0 10)) with 0%Q.
  change (inject_Z (Py.minZ 0 5)) with 0%Q.
  rewrite Hmin. reflexivity.
Qed.

(** X8: a customer without loans scores zero, whatever the approved limit,
    and therefore every loan request of such a customer is refused, at the
    requested rate and without any installment being computed. *)
Theorem compute_credit_score_no_loans (db : DB) (today : date) (c : Customer)
  (amount rate : Q) (t : Z) :
  loans_of db c = [] ->
  compute_credit_score db today c = Ok 0
  /\ evaluate_eligibility db today c amount rate t
     = Ok (mkEvaluation 0 false rate).
Proof.
  intro Hnone. pose proof (score_without_loans db today c Hnone) as Hs.
  split; [exact Hs|].
  unfold evaluate_eligibility. now rewrite Hs.
Qed.

Lemma compute_credit_score_no_loans_witness :
  compute_credit_score sample_db today0 new_customer = Ok 0
  /\ evaluate_eligibility sample_db today0 new_customer 200000 9 24
     = Ok (mkEvaluation 0 false 9).
Proof.
  apply (compute_credit_score_no_loans sample_db today0 new_customer
           200000 9 24).
  reflexivity.
Defined.

(** ** Tiers and eligibility *)

(** X9: a higher score never loses its tier and never gets a higher
    minimum rate. *)
Theorem minimum_rate_for_score_antitone (s1 s2 : Z) (m1 : Q) :
  s1 <= s2 ->
  minimum_rate_for_score s1 = Some m1 ->
  exists m2, minimum_rate_for_score s2 = Some m2 /\ (m2 <= m1)%Q.
Proof.
  intros Hle H1. apply minimum_rate_some_inv in H1.
  destruct (minimum_rate_defined s2) as (m2 & H2 & _).
  { destruct H1 as [[? _] | [[? _] | [? _]]]; lia. }
  exists m2. split; [exact H2|].
  apply minimum_rate_some_inv in H2.
  destruct H1 as [[? ->] | [[? ->] | [? ->]]];
    destruct H2 as [[? ->] | [[? ->] | [? ->]]];
    solve [discriminate | lia].
Qed.

Lemma minimum_rate_for_score_antitone_witness :
  exists m2, minimum_rate_for_score 45 = Some m2 /\ (m2 <= 16)%Q.
Proof.
  apply (minimum_rate_for_score_antitone 20 45 16); [lia | reflexivity].
Defined.

(** The anatomy of an approval, shared by the results on the evaluation and
    on the handlers. *)
Lemma approval_spec (db : DB) (today : date)
  (c : Customer) (amount rate : Q) (t s : Z) (r : Evaluation) :
  compute_credit_score db today c = Ok s ->
  evaluate_eligibility db today c amount rate t = Ok r ->
  score r = s
  /\ (approved r = true -> corrected_rate r = rate)
  /\ (approved r = true
      <-> exists m emi,
            minimum_rate_for_score s = Some m
            /\ (m = 0%Q \/ (m <= rate)%Q)
            /\ calculate_emi amount rate t = Ok emi
            /\ (get_current_emi_sum db today c + emi
                <= (1 # 2) * inject_Z (monthly_salary c))%Q).
Proof.
  intros Hs. unfold evaluate_eligibility. rewrite Hs. simpl.
  destruct (minimum_rate_for_score s) as [m|] eqn:Hm.
  2:{ intro H. inversion H; subst r. simpl.
      split; [reflexivity|]. split; [discriminate|].
      split; [discriminate | intros (m & _ & H' & _); discriminate H']. }
  pose proof (minimum_rate_some_inv s m Hm) as Htier.
  assert (Hcond : Py.Qltb 0 m && Py.Qltb rate m = true
                  <-> ~ (m = 0%Q \/ (m <= rate)%Q)).
  { rewrite andb_true_iff, !Qltb_true. split.
    - intros [H0 H1] [-> | H2]; [discriminate H0 | lra].
    - intro H. split.
      + destruct Htier as [[_ ->] | [[_ ->] | [_ ->]]];
          [exfalso; apply H; now left | reflexivity | reflexivity].
      + apply Qnot_le_lt. intro H'. apply H. now right. }
  destruct (Py.Qltb 0 m && Py.Qltb rate m) eqn:Ecorr.
  - assert (Hno : ~ (m = 0%Q \/ (m <= rate)%Q)) by (now apply Hcond).
    destruct (calculate_emi amount m t) as [emi|]; simpl; [|discriminate].
    intro H.
    assert (Hr : r = mkEvaluation s false m)
      by (revert H; case_if; intro H; now inversion H).
    subst r. simpl. split; [reflexivity|]. split; [discriminate|].
    split; [discriminate|].
    intros (m' & _ & Hm' & Hok & _). inversion Hm'; subst m'. contradiction.
  - assert (Hyes : m = 0%Q \/ (m <= rate)%Q).
    { destruct (Qlt_le_dec rate m) as [Hlt | Hge]; [|now right].
      destruct Htier as [[_ ->] | [[_ ->] | [_ ->]]]; [now left | |];
        exfalso; assert (Hf : false = true)
          by (apply Hcond; intros [H | H]; [discriminate H | lra]);
        discriminate Hf. }
    destruct (calculate_emi amount rate t) as [emi|] eqn:He; simpl;
      [|discriminate].
    destruct (Py.Qltb ((1 # 2) * _) _) eqn:Elim; intro H;
      injection H as <-; simpl;
      (split; [reflexivity|]); (split; [reflexivity || discriminate|]).
    + split; [discriminate|].
      intros (m' & emi' & _ & _ & He' & Hle). inversion He'; subst emi'.
      apply Qltb_true in Elim. lra.
    + split; [|reflexivity]. intros _. exists m, emi.
      apply Qltb_false in Elim. repeat split; assumption.
Qed.

(** X12: the evaluation reads the loan table and three fields of the
    customer: the key, the approved limit and the salary.  Names, age and
    the cached debt have no influence. *)
Theorem evaluate_eligibility_reads (db db' : DB) (today : date)
  (c c' : Customer) (amount rate : Q) (t : Z) :
  loans db' = loans db ->
  customer_id c' = customer_id c ->
  approved_limit c' = approved_limit c ->
  monthly_salary c' = monthly_salary c ->
  evaluate_eligibility db' today c' amount rate t
  = evaluate_eligibility db today c amount rate t.
Proof.
  intros Hl Hid Hlim Hsal. unfold evaluate_eligibility.
  rewrite (compute_credit_score_ext db db' today c c' Hl Hid Hlim).
  unfold get_current_emi_sum, get_current_loans, loans_of.
  now rewrite Hl, Hid, Hsal.
Qed.

Lemma evaluate_eligibility_reads_witness :
  evaluate_eligibility
    (mkDB [] (loans sample_db)) today0
    (mkCustomer 2 "Other" "Name" "0" (Some 40) 100000 100000 987654)
    100000 10 12
  = evaluate_eligibility sample_db today0 fair_customer 100000 10 12.
Proof.
  apply evaluate_eligibility_reads; reflexivity.
Defined.

(** ** Current loans *)

Lemma date_leb_spec (d1 d2 : date) :
  date_leb d1 d2 = true
  <-> year d1 < year d2
      \/ (year d1 = year d2
          /\ (month d1 < month d2
              \/ (month d1 = month d2 /\ day d1 <= day d2))).
Proof.
  unfold date_leb.
  rewrite orb_true_iff, andb_true_iff, orb_true_iff, andb_true_iff.
  rewrite !Z.ltb_lt, !Z.eqb_eq, Z.leb_le. reflexivity.
Qed.

Lemma date_leb_trans (d1 d2 d3 : date) :
  date_leb d1 d2 = true -> date_leb d2 d3 = true -> date_leb d1 d3 = true.
Proof.
  rewrite !date_leb_spec. lia.
Qed.

(** X13: a loan that is current on some day is current on every earlier
    day: moving the clock forward can only shrink the set of current loans,
    and a loan without end date never leaves it. *)
Theorem get_current_loans_antitone (db : DB) (d1 d2 : date) (c : Customer) :
  date_leb d1 d2 = true ->
  incl (get_current_loans db d2 c) (get_current_loans db d1 c)
  /\ (forall l, In l (loans_of db c) -> end_date l = None ->
                In l (get_current_loans db d2 c)).
Proof.
  intro Hle. unfold get_current_loans. split.
  - intros l Hin. apply filter_In in Hin. destruct Hin as [Hin Hcur].
    apply filter_In. split; [assumption|].
    unfold is_current in *. destruct (end_date l) as [e|]; [|reflexivity].
    now apply (date_leb_trans d1 d2 e).
  - intros l Hin Hend. apply filter_In. split; [assumption|].
    unfold is_current. now rewrite Hend.
Qed.

Lemma get_current_loans_antitone_witness :
  incl (get_current_loans sample_db today0 past_customer)
       (get_current_loans sample_db (mkDate 2024 6 1) past_customer).
Proof.
  apply (get_current_loans_antitone sample_db (mkDate 2024 6 1) today0
           past_customer).
  reflexivity.
Defined.

(** ** Sums and truncation *)

Section Sums.

Context {A : Type}.

Lemma or_else_sum (field : A -> Q) (rows : list A) :
  (Py.or_else (Sum field rows) 0
   == fold_right (fun r acc => field r + acc) 0 rows)%Q.
Proof.
  destruct rows as [|r rows]; simpl; [reflexivity|].
  destruct (Qeq_bool _ 0) eqn:E; [|reflexivity].
  apply Qeq_bool_iff in E. now rewrite E.
Qed.

End Sums.

Lemma int_opp (x : Q) : Py.int (- x) = - Py.int x.
Proof.
  destruct x as [n d]. unfold Py.int. simpl. apply Z.quot_opp_l. discriminate.
Qed.

(** Truncation depends on the value of the fraction, not on how it is
    written. *)
Lemma int_eq (x y : Q) : (x == y)%Q -> Py.int x = Py.int y.
Proof.
  intro H. destruct (Qlt_le_dec x 0) as [Hneg | Hpos].
  - assert (Hx : (0 <= - x)%Q) by lra. assert (Hy : (0 <= - y)%Q) by lra.
    assert (Hi : Py.int (- x) = Py.int (- y)).
    { rewrite !int_floor by assumption. apply Qfloor_comp. now rewrite H. }
    rewrite !int_opp in Hi. lia.
  - rewrite !int_floor by lra. now apply Qfloor_comp.
Qed.

(** * Further properties of the ingestion *)

(** X15: reconciliation is self-healing.  The reconciled table is the same
    for any two tables that agree on the loans and on every customer field
    but the cached debt, and in it every cached debt is the truncated
    current principal of that customer. *)
Theorem reconcile_ignores_cache (today : date) (db db' : DB) :
  loans db' = loans db ->
  map (fun c => set_current_debt c 0) (customers db')
  = map (fun c => set_current_debt c 0) (customers db) ->
  reconcile today db' = reconcile today db
  /\ Forall (fun c => current_debt c
                      = Py.int (get_current_debt_sum (reconcile today db)
                                  today c))
            (customers (reconcile today db)).
Proof.
  intros Hl Hc. rewrite !reconcile_map. split.
  - rewrite Hl. f_equal.
    revert Hc. generalize (customers db) as cs. generalize (customers db').
    induction l as [|c' cs' IH]; intros [|c cs] H; simpl in *;
      try discriminate; [reflexivity|].
    assert (Hhd : set_current_debt c' 0 = set_current_debt c 0)
      by congruence.
    assert (Htl : map (fun c => set_current_debt c 0) cs'
                  = map (fun c => set_current_debt c 0) cs) by congruence.
    f_equal; [|now apply IH].
    unfold refreshed.
    rewrite (get_current_debt_sum_ext db db' today c c' Hl)
      by (exact (f_equal customer_id Hhd)).
    apply (f_equal (fun x => set_current_debt
                      x (Py.int (get_current_debt_sum db today c)))) in Hhd.
    now rewrite !set_current_debt_twice in Hhd.
  - simpl. apply Forall_forall. intros c' Hin.
    apply in_map_iff in Hin. destruct Hin as (c & <- & _).
    reflexivity.
Qed.

Lemma reconcile_ignores_cache_witness :
  reconcile today0
    (mkDB (map (fun c => set_current_debt c 424242) (customers sample_db))
          (loans sample_db))
  = reconcile today0 sample_db.
Proof.
  apply (reconcile_ignores_cache today0 sample_db
           (mkDB (map (fun c => set_current_debt c 424242)
                      (customers sample_db))
                 (loans sample_db))); reflexivity.
Defined.

Section Aliases.

Context {V : Type}.

Lemma get_value_skip (row : list (string * cell V)) (pre keys : list string)
  (default : option V) :
  (forall k, In k pre -> ~ has_value row k) ->
  _get_value row (pre ++ keys) default = _get_value row keys default.
Proof.
  induction pre as [|k pre IH]; intro H; simpl; [reflexivity|].
  rewrite IH by (intros k' Hk'; apply H; now right).
  destruct (row_get row k) as [[|v]|] eqn:E; try reflexivity.
  exfalso. apply (H k); [now left | now exists v].
Qed.

(** X16: among the column names tried, the first one that holds a value
    wins, a missing or empty column falling through to the next name; the
    default is returned when none of them holds a value. *)
Theorem get_value_first_alias (row : list (string * cell V))
  (pre post : list string) (key : string) (v : V) (default : option V) :
  (forall k, In k pre -> ~ has_value row k) ->
  (row_get row key = Some (Cell v) ->
   _get_value row (pre ++ key :: post) default = Some v)
  /\ _get_value row pre default = default.
Proof.
  intro Hpre. split.
  - intro Hkey. rewrite get_value_skip by assumption. simpl. now rewrite Hkey.
  - rewrite <- (app_nil_r pre). now rewrite get_value_skip.
Qed.

End Aliases.

Lemma get_value_first_alias_witness :
  _get_value [("customer_id"%string, NaN); ("customer id"%string, Cell 7)]
             (["customer_id"%string] ++ "customer id"%string :: []) None
  = Some 7.
Proof.
  apply (proj1 (get_value_first_alias
                  [("customer_id"%string, NaN); ("customer id"%string, Cell 7)]
                  ["customer_id"%string] [] "customer id"%string 7 None
                  ltac:(intros k [<- | []] [v Hv]; discriminate Hv))).
  reflexivity.
Defined.

(** * Further properties of the views *)

Lemma find_customer_id (db : DB) (cid : Z) (c : Customer) :
  get_customer db cid = Some c -> In c (customers db) /\ customer_id c = cid.
Proof.
  intro H. apply find_some in H. destruct H as [Hin Heq].
  split; [assumption | now apply Z.eqb_eq].
Qed.

(** X17: the listing answers 404 exactly when no customer has the key;
    otherwise it lists, in table order, exactly the loans owned by that key
    that have no end date or end today or later. *)
Theorem view_loans_by_customer_lists (db : DB) (today : date) (cid : Z) :
  (view_loans_by_customer db today cid = Http404
   <-> forall c, In c (customers db) -> customer_id c <> cid)
  /\ (forall items,
        view_loans_by_customer db today cid = Http200 items ->
        map Item.loan_id items
        = map loan_id
            (filter (fun l => (customer l =? cid) && is_current today l)
                    (loans db))).
Proof.
  unfold view_loans_by_customer.
  destruct (get_customer db cid) as [c|] eqn:E.
  - apply find_customer_id in E. destruct E as [Hin Hid]. split.
    + split; [discriminate|]. intro H. now contradiction (H c Hin).
    + intros items H. injection H as <-.
      rewrite filter_twice, map_map, Hid. reflexivity.
  - split; [|discriminate]. split; [|reflexivity].
    intros _ c Hin Hid.
    apply (find_none _ _ E) in Hin. apply Z.eqb_neq in Hin. contradiction.
Qed.

(** ** Request handlers *)

Section HandlerFacts.

Variable next_loan_id : DB -> Z.

#[local] Abbreviation respond := (loan_response next_loan_id).

Lemma evaluate_eligibility_score (db : DB) (today : date) (c : Customer)
  (amount rate : Q) (t : Z) (ev : Evaluation) :
  evaluate_eligibility db today c amount rate t = Ok ev ->
  compute_credit_score db today c = Ok (score ev).
Proof.
  intro H.
  destruct (compute_credit_score db today c) as [s|] eqn:Hs.
  - now destruct (approval_spec db today c amount rate t s ev Hs H) as [-> _].
  - unfold evaluate_eligibility in H. rewrite Hs in H. discriminate H.
Qed.

(** The two ways in which the second half of [create_loan] answers. *)
Lemma loan_response_inv (db db' : DB) (today : date) (c : Customer)
  (amount rate : Q) (t : Z) (response : Response) :
  respond db today c amount rate t = Return (response, db') ->
  (exists ev emi,
     evaluate_eligibility db today c amount rate t = Ok ev
     /\ approved ev = false
     /\ calculate_emi amount (corrected_rate ev) t = Ok emi
     /\ response
        = mkResponse
            (LoanResult None (customer_id c) false
               "Loan not approved based on credit policy." (Py.round2 emi))
            200
     /\ db' = db)
  \/ (exists s emi end_date,
        evaluate_eligibility db today c amount rate t
        = Ok (mkEvaluation s true rate)
        /\ calculate_emi amount rate t = Ok emi
        /\ add_months today t = Some end_date
        /\ response
           = mkResponse
               (LoanResult (Some (next_loan_id db)) (customer_id c) true
                  "Loan approved." (Py.round2 emi))
               201
        /\ db' = reconcile_customer today
                   (create_row db
                      (mkLoan (next_loan_id db) (customer_id c) amount t rate
                              emi 0 (Some today) (Some end_date)))
                   c).
Proof.
  unfold loan_response.
  destruct (evaluate_eligibility db today c amount rate t) as [ev|] eqn:Hev;
    simpl; [|discriminate].
  destruct (calculate_emi amount (corrected_rate ev) t) as [emi|] eqn:Hemi;
    simpl; [|discriminate].
  destruct (approved ev) eqn:Happ; simpl.
  - destruct (add_months today t) as [end_date|] eqn:Hend; [|discriminate].
    intro H. injection H as <- <-. right.
    pose proof (evaluate_eligibility_score _ _ _ _ _ _ _ Hev) as Hs.
    destruct (approval_spec db today c amount rate t _ ev Hs Hev)
      as (_ & Hrate & _).
    specialize (Hrate Happ).
    destruct ev as [s a cr]. simpl in *. subst a cr.
    exists s, emi, end_date. repeat split; assumption.
  - intro H. injection H as <- <-. left.
    exists ev, emi. repeat split; assumption.
Qed.

Lemma add_months_not_before (d e : date) (n : Z) :
  0 <= n ->
  1 <= month d <= 12 ->
  day d <= days_in_month (year d) (month d) ->
  add_months d n = Some e ->
  date_leb d e = true.
Proof.
  intros Hn Hm Hd. unfold add_months.
  set (total := year d * 12 + (month d - 1) + n).
  pose proof (Z.div_mod total 12 ltac:(lia)) as Hdm.
  pose proof (Z.mod_pos_bound total 12 ltac:(lia)) as Hb.
  destruct ((1 <=? total / 12) && (total / 12 <=? 9999)); [|discriminate].
  intro H. injection H as <-. apply date_leb_spec. simpl.
  destruct (Z_lt_ge_dec (year d) (total / 12)) as [|Hy]; [now left|].
  right. assert (Hy' : year d = total / 12) by (unfold total in *; lia).
  split; [assumption|].
  destruct (Z_lt_ge_dec (month d) (total mod 12 + 1)) as [|Hmo]; [now left|].
  right.
  assert (Hm' : month d = total mod 12 + 1) by (unfold total in *; lia).
  split; [assumption|].
  rewrite <- Hy', <- Hm', minZ_spec. lia.
Qed.

Lemma Sum_app_one (rows : list Loan) (l : Loan) :
  (Py.or_else (Sum loan_amount (rows ++ [l])) 0
   == Py.or_else (Sum loan_amount rows) 0 + loan_amount l)%Q.
Proof.
  rewrite !or_else_sum.
  induction rows as [|r rows IH]; simpl; [ring|].
  rewrite IH. ring.
Qed.


End HandlerFacts.


Section RequiredFields.

Variable V : Type.

(** X23: [_require_fields] accepts exactly when every required field is a
    key of the request; it then carries no response, and otherwise it
    carries a response of status 400, so the handlers never return an empty
    answer. *)
Theorem require_fields_spec (data : list (string * V))
  (fields : list string) :
  (fst (_require_fields V data fields) = true
   <-> forall field, In field fields -> has_field V data field = true)
  /\ (fst (_require_fields V data fields) = true ->
      snd (_require_fields V data fields) = None)
  /\ (fst (_require_fields V data fields) = false ->
      exists response,
        snd (_require_fields V data fields) = Some response
        /\ status response = 400).
Proof.
  unfold _require_fields.
  destruct (filter (fun field => negb (has_field V data field)) fields)
    as [|f missing] eqn:E; simpl.
  - split; [|split; [reflexivity | discriminate]].
    split; [|reflexivity]. intros _ field Hin.
    destruct (has_field V data field) eqn:Hf; [reflexivity|].
    assert (Hm : In field (filter (fun field => negb (has_field V data field))
                                  fields))
      by (apply filter_In; split; [assumption | now rewrite Hf]).
    rewrite E in Hm. contradiction.
  - split; [|split; [discriminate | intros _; eexists; split; reflexivity]].
    split; [discriminate|]. intro H.
    assert (Hm : In f (filter (fun field => negb (has_field V data field))
                              fields))
      by (rewrite E; now left).
    apply filter_In in Hm. destruct Hm as [Hin Hf].
    rewrite (H f Hin) in Hf. discriminate Hf.
Qed.

End RequiredFields.

Lemma require_fields_spec_witness :
  fst (_require_fields json (sample_request 1 100000 10 12)
         ["customer_id"%string; "tenure"%string]) = true.
Proof.
  apply (proj1 (require_fields_spec json (sample_request 1 100000 10 12)
                  ["customer_id"%string; "tenure"%string])).
  intros field [<- | [<- | []]]; reflexivity.
Defined.

Lemma view_loans_by_customer_lists_witness :
  view_loans_by_customer sample_db today0 99 = Http404.
Proof.
  apply (proj2 (proj1 (view_loans_by_customer_lists sample_db today0 99))).
  intros c Hin. simpl in Hin.
  repeat (destruct Hin as [<- | Hin]; [discriminate|]). contradiction.
Defined.

Section Registration.

Variable V : Type.
Variable py_int : V -> conversion Z.
Variable py_str : V -> string.
Variable is_none : V -> bool.
Variable next_customer_id : DB -> Z.

#[local] Abbreviation register :=
  (register_customer V py_int py_str is_none next_customer_id).

Lemma round_to_lakh_income (income : Z) :
  (exists k, round_to_lakh (inject_Z (36 * income)) = k * LAKH)
  /\ -50000 <= round_to_lakh (inject_Z (36 * income)) - 36 * income <= 50000
  /\ (0 <= income -> 0 <= round_to_lakh (inject_Z (36 * income))).
Proof.
  split; [eexists; reflexivity|]. split.
  - pose proof (round_to_lakh_within (inject_Z (36 * income))) as [H1 H2].
    revert H1 H2. generalize (round_to_lakh (inject_Z (36 * income))).
    intro z. unfold Qle, Qminus, Qplus, Qopp. simpl. lia.
  - intro H. unfold round_to_lakh.
    apply Z.mul_nonneg_nonneg; [|discriminate].
    change 0 with (Py.round 0). apply round_monotone.
    apply Qle_shift_div_l; [reflexivity|].
    rewrite Qmult_0_l. apply inject_Z_nonneg. lia.
Qed.

(** X25: [register_customer] writes only when it answers 201, and then it
    appends one customer whose cached debt is zero and whose approved limit
    is a multiple of 100000, not negative when the income is not negative,
    and at most 50000 away from 36 times the income when that product is of
    magnitude at most [10^15]; the loan table is untouched. *)
Theorem register_customer_limit (db db' : DB) (data : list (string * V))
  (response : Response) :
  register db data = Return (response, db') ->
  (status response <> 201 -> db' = db)
  /\ (status response = 201 ->
      exists c,
        db' = mkDB (customers db ++ [c]) (loans db)
        /\ current_debt c = 0
        /\ (exists k, approved_limit c = k * LAKH)
        /\ (0 <= monthly_salary c -> 0 <= approved_limit c)
        /\ (Z.abs (36 * monthly_salary c) <= 10 ^ 15 ->
            -50000 <= approved_limit c - 36 * monthly_salary c <= 50000)).
Proof.
  unfold register_customer, _require_fields.
  destruct (filter _ _); simpl.
  2:{ intro H. injection H as <- <-. split; [reflexivity | discriminate]. }
  destruct (get_field V data "monthly_income"); simpl; try discriminate.
  unfold unless_error, _parse_int.
  destruct (py_int a) as [income| |]; simpl; try discriminate.
  2:{ intro H. injection H as <- <-. split; [reflexivity | discriminate]. }
  destruct (get_field V data "age"); simpl; try discriminate.
  destruct (py_int a0) as [age| |]; simpl; try discriminate.
  2:{ intro H. injection H as <- <-. split; [reflexivity | discriminate]. }
  destruct (get_field V data "first_name"); simpl; try discriminate.
  destruct (get_field V data "last_name"); simpl; try discriminate.
  destruct (get_field V data "phone_number"); simpl; try discriminate.
  destruct (is_none a1 || is_none a2); [discriminate|].
  intro H. injection H as <- <-. simpl.
  split; [intro H; now contradiction H|]. intros _.
  eexists. split; [reflexivity|]. simpl.
  split; [reflexivity|].
  destruct (round_to_lakh_income income) as (Hk & Hnear & Hpos).
  split; [exact Hk|]. split; [exact Hpos|]. intros _. exact Hnear.
Qed.

End Registration.

Lemma register_customer_limit_witness :
  exists response db' c,
    sample_register sample_db
      [("first_name"%string, JStr "John"); ("last_name"%string, JStr "Doe");
       ("age"%string, JNum 30); ("monthly_income"%string, JNum 50000);
       ("phone_number"%string, JNum 9876543210)]
    = Return (response, db')
    /\ View.data response
       = Registered 8 "John Doe" 30 50000 1800000 "0"
    /\ db' = mkDB (customers sample_db ++ [c]) (loans sample_db)
    /\ (exists k, approved_limit c = k * LAKH)
    /\ -50000 <= approved_limit c - 36 * monthly_salary c <= 50000.
Proof.
  destruct (sample_register sample_db
              [("first_name"%string, JStr "John");
               ("last_name"%string, JStr "Doe");
               ("age"%string, JNum 30); ("monthly_income"%string, JNum 50000);
               ("phone_number"%string, JNum 9876543210)])
    as [[response db']|] eqn:E;
    [|vm_compute in E; discriminate E].
  assert (H201 : status response = 201
                 /\ View.data response
                    = Registered 8 "John Doe" 30 50000 1800000 "0")
    by (vm_compute in E; injection E as <- _; split; reflexivity).
  destruct (register_customer_limit _ _ _ _ _ _ _ _ _ E) as [_ H].
  destruct (H (proj1 H201)) as (c & Hdb & _ & Hk & _ & Hnear).
  exists response, db', c. split; [reflexivity|].
  split; [exact (proj2 H201)|]. split; [exact Hdb|]. split; [exact Hk|].
  apply Hnear. rewrite Hdb in E. vm_compute in E.
  injection E as _ <-. vm_compute. discriminate.
Defined.
